(** * clip2_process.py: a shallow embedding of scripts/clip2_process.py

    The script imports torch and PIL, tries to import transformers, and
    either returns a placeholder document or runs a CLIP checkpoint on the
    image given on the command line, printing the result as JSON.

    - Python strings are lists of code points ([pystr]).
    - Floats are [fl]: a finite value (a real number), an infinity or NaN,
      with the IEEE rules for the special values.  The float32 arithmetic
      torch does on finite values (the row norm, and the rounding of each
      quotient, with its overflow and underflow) belongs to the [World].
    - The third-party calls (checkpoint loading, [Image.open], [convert],
      the processor, [get_image_features]) are the fields of a [World]: each
      returns a value or raises a Python exception.
    - [process_image] runs in a small state-and-exception monad whose state is
      the trace of library calls made, so that file accesses are visible. *)

From Stdlib Require Import List String Ascii NArith ZArith Lia Reals Lra Psatz Bool.
Import ListNotations.
Open Scope list_scope.

Local Set Warnings "-register-all".

(** ** Python values *)

Definition pystr := list N.

(** A Rocq (ASCII) string literal as a Python [str]. *)
Definition pstr (s : string) : pystr :=
  map (fun c => N_of_ascii c) (list_ascii_of_string s).

Inductive fl : Type :=
| Fin (r : R)
| Inf (neg : bool)
| NaN.

Definition is_finite (x : fl) : bool :=
  match x with Fin _ => true | _ => false end.

(** Python objects the script builds: [str], [float], [list], [dict]
    (a dict as its items in insertion order). *)
Inductive pyval : Type :=
| PStr (s : pystr)
| PFloat (f : fl)
| PList (l : list pyval)
| PDict (kvs : list (pystr * pyval)).

(** ** Exceptions

    [ImportError] and [OtherException] are subclasses of [Exception];
    [BaseOnly] stands for [BaseException] subclasses outside [Exception]
    (KeyboardInterrupt, GeneratorExit); [SysExit] is SystemExit, with its
    [code] attribute.  [str(e)] either gives the message or itself raises. *)

(** [SystemExit.code]: [None], an [int], or another object (given by its
    [str]). *)
Inductive exit_code : Type :=
| ExitNone
| ExitInt (c : Z)
| ExitObj (s : list N).

Inductive exn_kind : Type :=
| ImportError
| OtherException
| BaseOnly
| SysExit (code : exit_code).

Inductive exn : Type :=
| Exn (kind : exn_kind) (str : exn_str)
with exn_str : Type :=
| StrOk (s : pystr)
| StrRaises (e : exn).

Definition exn_kind_of (e : exn) : exn_kind :=
  match e with Exn k _ => k end.

Definition is_Exception (k : exn_kind) : bool :=
  match k with ImportError | OtherException => true | _ => false end.

Inductive outcome (A : Type) : Type :=
| Ok (a : A)
| Err (e : exn).
Arguments Ok {A} a.
Arguments Err {A} e.

(** ** The environment: installed modules and the library calls *)

Definition handle := nat.

Record World : Type := {
  torch_installed : bool;
  pil_installed : bool;
  (** [from transformers import CLIPProcessor, CLIPModel]: [None] when it
      succeeds, [Some e] when it raises [e]. *)
  transformers_import : option exn;
  w_load_model : pystr -> outcome handle;           (* CLIPModel.from_pretrained *)
  w_load_processor : pystr -> outcome handle;       (* CLIPProcessor.from_pretrained *)
  w_open : pystr -> outcome handle;                 (* Image.open *)
  w_convert : handle -> pystr -> outcome handle;    (* image.convert *)
  w_preprocess : handle -> handle -> outcome handle; (* processor(images=..) *)
  w_features : handle -> handle -> outcome (list (list fl));
    (* model.get_image_features: one row per image *)
  w_norm : list R -> fl;
    (* torch's float32 Euclidean norm of a row of finite values *)
  w_round : R -> fl
    (* float32 rounding of an exact quotient, overflowing to an infinity *)
}.

(** Library calls recorded in the trace. *)
Inductive event : Type :=
| EvLoadModel (name : pystr)
| EvLoadProcessor (name : pystr)
| EvOpen (path : pystr)
| EvConvert (mode : pystr)
| EvPreprocess
| EvInfer.

(** ** The monad: trace state and Python exceptions *)

Definition M (A : Type) : Type := list event -> outcome A * list event.

Definition ret {A} (a : A) : M A := fun t => (Ok a, t).
Definition raise {A} (e : exn) : M A := fun t => (Err e, t).

Definition bind {A B} (m : M A) (k : A -> M B) : M B :=
  fun t => match m t with
           | (Ok a, t') => k a t'
           | (Err e, t') => (Err e, t')
           end.

Notation "x <- m ;; k" := (bind m (fun x => k))
  (at level 61, m at next level, right associativity).

(** Calling into a library: the call is recorded, then it returns or raises. *)
Definition lib {A} (ev : event) (o : outcome A) : M A :=
  fun t => (o, t ++ [ev]).

(** [try: m except ...: h]. *)
Definition try_except {A} (m : M A) (h : exn -> M A) : M A :=
  fun t => match m t with
           | (Ok a, t') => (Ok a, t')
           | (Err e, t') => h e t'
           end.

(** ** Tensor arithmetic on [fl] *)

Fixpoint sum_sq (xs : list R) : R :=
  match xs with
  | [] => 0%R
  | x :: xs' => (x * x + sum_sq xs')%R
  end.

Definition fin_vals (xs : list fl) : list R :=
  flat_map (fun x => match x with Fin r => [r] | _ => [] end) xs.

Definition is_nan (x : fl) : bool := match x with NaN => true | _ => false end.
Definition is_inf (x : fl) : bool := match x with Inf _ => true | _ => false end.

(** [t.norm(dim=-1)] on one row: NaN if a NaN occurs, +inf if an infinity
    occurs, else torch's float32 norm of the finite values. *)
Definition row_norm (w : World) (xs : list fl) : fl :=
  if existsb is_nan xs then NaN
  else if existsb is_inf xs then Inf false
  else w_norm w (fin_vals xs).

(** IEEE division (signs of zeros not tracked); a finite quotient by a
    non-zero value is rounded to float32. *)
Definition fdiv (w : World) (x y : fl) : fl :=
  match x, y with
  | NaN, _ | _, NaN => NaN
  | Inf _, Inf _ => NaN
  | Inf a, Fin d => if Rlt_dec d 0 then Inf (negb a) else Inf a
  | Fin _, Inf _ => Fin 0
  | Fin n, Fin d =>
      if Req_dec_T d 0 then
        (if Req_dec_T n 0 then NaN else Inf (if Rlt_dec n 0 then true else false))
      else w_round w (n / d)
  end.

(** [image_features / image_features.norm(dim=-1, keepdim=True)]. *)
Definition normalize_rows (w : World) (rows : list (list fl)) : list (list fl) :=
  map (fun row => let n := row_norm w row in map (fun x => fdiv w x n) row) rows.

(** ** process_image *)

Definition zeros512 : pyval := PList (repeat (PFloat (Fin 0)) 512).

Definition doc (caption : pystr) (embedding : pyval) : pyval :=
  PDict [(pstr "caption", PStr caption); (pstr "embedding", embedding)].

Definition model_name : pystr := pstr "openai/clip-vit-base-patch32".

Definition index_error : exn :=
  Exn OtherException (StrOk (pstr "index 0 is out of bounds for dimension 0 with size 0")).

(** [image_features[0]]. *)
Definition index0 (rows : list (list fl)) : M (list fl) :=
  match rows with
  | row :: _ => ret row
  | [] => raise index_error
  end.

(** The body of the [try] block. *)
Definition clip_body (w : World) (image_path : pystr) : M pyval :=
  model <- lib (EvLoadModel model_name) (w_load_model w model_name) ;;
  processor <- lib (EvLoadProcessor model_name) (w_load_processor w model_name) ;;
  image0 <- lib (EvOpen image_path) (w_open w image_path) ;;
  image <- lib (EvConvert (pstr "RGB")) (w_convert w image0 (pstr "RGB")) ;;
  inputs <- lib EvPreprocess (w_preprocess w processor image) ;;
  image_features <- lib EvInfer (w_features w model inputs) ;;
  embedding <- index0 (normalize_rows w image_features) ;;
  ret (doc (pstr "Image from " ++ image_path) (PList (map PFloat embedding))).

(** [except Exception as e: return {... f"Error processing image: {str(e)}"}];
    anything that is not an [Exception] passes through. *)
Definition clip_handler (e : exn) : M pyval :=
  if is_Exception (exn_kind_of e) then
    match e with
    | Exn _ (StrOk m) => ret (doc (pstr "Error processing image: " ++ m) zeros512)
    | Exn _ (StrRaises e') => raise e'
    end
  else raise e.

Definition process_image (w : World) (HAS_CLIP : bool) (image_path : pystr) : M pyval :=
  if negb HAS_CLIP then
    ret (doc (pstr "Image: " ++ image_path) zeros512)
  else
    try_except (clip_body w image_path) clip_handler.

(** ** json.dumps (default arguments: ensure_ascii=True, allow_nan=True,
    separators ", " and ": ") *)

(** One lowercase hexadecimal digit. *)
Definition hexdig (d : N) : N := if (d <? 10)%N then (48 + d)%N else (87 + d)%N.

(** ['{0:04x}'.format(n)] for [n < 0x10000]. *)
Definition hex4 (n : N) : pystr :=
  [hexdig (N.land (N.shiftr n 12) 15); hexdig (N.land (N.shiftr n 8) 15);
   hexdig (N.land (N.shiftr n 4) 15); hexdig (N.land n 15)].

(** [py_encode_basestring_ascii] on one code point: backslash, double quote
    and every code point outside the range 0x20..0x7e are replaced, the rest
    is kept (the pattern [ESCAPE_ASCII] of json.encoder). *)
Definition enc_char (c : N) : pystr :=
  if (c =? 34)%N then [92; 34]%N
  else if (c =? 92)%N then [92; 92]%N
  else if (c =? 8)%N then [92; 98]%N
  else if (c =? 12)%N then [92; 102]%N
  else if (c =? 10)%N then [92; 110]%N
  else if (c =? 13)%N then [92; 114]%N
  else if (c =? 9)%N then [92; 116]%N
  else if ((32 <=? c) && (c <=? 126))%N then [c]
  else if (c <? 65536)%N then 92%N :: 117%N :: hex4 c
  else
    let n := (c - 65536)%N in
    let s1 := N.lor 55296 (N.land (N.shiftr n 10) 1023) in
    let s2 := N.lor 56320 (N.land n 1023) in
    92%N :: 117%N :: hex4 s1 ++ 92%N :: 117%N :: hex4 s2.

(** The value of a hexadecimal digit written by [hexdig], and of a run of
    such digits, as a JSON decoder reads a [\uXXXX] escape. *)
Definition hexval (d : N) : N := if (d <? 58)%N then (d - 48)%N else (d - 87)%N.

Definition hex_value (s : pystr) : N := fold_left (fun acc d => (acc * 16 + hexval d)%N) s 0%N.

Definition enc_str (s : pystr) : pystr := 34%N :: flat_map enc_char s ++ [34%N].

Definition comma_sep : pystr := pstr ", ".
Definition colon_sep : pystr := pstr ": ".

Section Dumps.

(** [float.__repr__] on finite floats (CPython's shortest round-trip
    repr), which this development does not compute digit by digit. *)
Variable float_repr : R -> pystr.

(** [floatstr] of the JSON encoder. *)
Definition enc_float (f : fl) : pystr :=
  match f with
  | NaN => pstr "NaN"
  | Inf false => pstr "Infinity"
  | Inf true => pstr "-Infinity"
  | Fin r => float_repr r
  end.

Fixpoint dumps (v : pyval) : pystr :=
  match v with
  | PStr s => enc_str s
  | PFloat f => enc_float f
  | PList l =>
      let fix items (l : list pyval) : pystr :=
        match l with
        | [] => []
        | x :: l' => comma_sep ++ dumps x ++ items l'
        end in
      91%N :: match l with
              | [] => []
              | x :: l' => dumps x ++ items l'
              end ++ [93%N]
  | PDict kvs =>
      let enc_item (kv : pystr * pyval) := enc_str (fst kv) ++ colon_sep ++ dumps (snd kv) in
      let fix items (kvs : list (pystr * pyval)) : pystr :=
        match kvs with
        | [] => []
        | kv :: kvs' => comma_sep ++ enc_str (fst kv) ++ colon_sep ++ dumps (snd kv) ++ items kvs'
        end in
      123%N :: match kvs with
               | [] => []
               | kv :: kvs' => enc_str (fst kv) ++ colon_sep ++ dumps (snd kv) ++ items kvs'
               end ++ [125%N]
  end.

End Dumps.

(** ** The script as a process *)

Inductive status : Type :=
| Exited (code : Z)      (* normal exit, or SystemExit *)
| Uncaught (e : exn).    (* the interpreter prints a traceback and dies *)

Record proc : Type := mkProc {
  p_stdout : pystr;
  p_stderr : pystr;
  p_status : status;
  p_trace : list event
}.

Definition nl : pystr := [10%N].

Definition exn_message (e : exn) : pystr :=
  match e with Exn _ (StrOk m) => m | Exn _ (StrRaises _) => [] end.

(** The traceback CPython prints for an uncaught exception, abbreviated to
    its header and the exception's message. *)
Definition traceback_text (e : exn) : pystr :=
  pstr "Traceback (most recent call last):" ++ nl ++ exn_message e ++ nl.

(** The exit status of [exit((int)PyLong_AsLongLong(code))]: an [int]
    code outside the range of a C [long long] exits with -1; the system
    keeps the low 8 bits. *)
Definition exit_status (c : Z) : Z :=
  if ((-9223372036854775808 <=? c) && (c <? 9223372036854775808))%Z then (c mod 256)%Z
  else 255%Z.

(** An exception reaching the top level: SystemExit exits with status 0
    for [None], with [exit_status] of an [int] code, and otherwise prints
    the code on stderr and exits with status 1; anything else prints a
    traceback. *)
Definition die (out err : pystr) (e : exn) (tr : list event) : proc :=
  match exn_kind_of e with
  | SysExit ExitNone => mkProc out err (Exited 0) tr
  | SysExit (ExitInt c) => mkProc out err (Exited (exit_status c)) tr
  | SysExit (ExitObj s) => mkProc out (err ++ s ++ nl) (Exited 1) tr
  | _ => mkProc out (err ++ traceback_text e) (Uncaught e) tr
  end.

Definition module_not_found (name : string) : exn :=
  Exn ImportError (StrOk (pstr (String.append "No module named '" (String.append name "'")))).

Definition warning_text : pystr :=
  pstr "Warning: transformers not installed. Install with: pip install transformers torch pillow" ++ nl.

Definition usage_doc : pyval :=
  PDict [(pstr "error", PStr (pstr "Usage: clip2_process.py <image_path>"))].

Section Script.

Variable float_repr : R -> pystr.

(** The [if __name__ == "__main__":] block, once the imports have run;
    [err0] is what was already written to stderr. *)
Definition main (w : World) (HAS_CLIP : bool) (err0 : pystr) (argv : list pystr) : proc :=
  if Nat.ltb (List.length argv) 2 then
    mkProc [] (err0 ++ dumps float_repr usage_doc ++ nl) (Exited 1) []
  else
    let image_path := nth 1 argv [] in
    match process_image w HAS_CLIP image_path [] with
    | (Ok result, tr) => mkProc (dumps float_repr result ++ nl) err0 (Exited 0) tr
    | (Err e, tr) => die [] err0 e tr
    end.

(** The whole script, run as [python3 clip2_process.py argv[1:]]; [argv]
    includes [argv[0]]. *)
Definition run (w : World) (argv : list pystr) : proc :=
  if negb (torch_installed w) then die [] [] (module_not_found "torch") []
  else if negb (pil_installed w) then die [] [] (module_not_found "PIL") []
  else
    match transformers_import w with
    | None => main w true [] argv
    | Some e =>
        match exn_kind_of e with
        | ImportError => main w false warning_text argv
        | _ => die [] [] e []
        end
    end.

End Script.

(** ** RFC 8259 JSON text, as a recursive-descent recognizer

    Each recognizer returns the input left after the recognized prefix. *)

Module Json.



Definition is_digit (c : N) : bool := ((48 <=? c) && (c <=? 57))%N.


Fixpoint drop_digits (s : pystr) : pystr :=
  match s with
  | c :: s' => if is_digit c then drop_digits s' else s
  | [] => []
  end.

(** [1*DIGIT] *)
Definition p_digits1 (s : pystr) : option pystr :=
  match s with
  | c :: s' => if is_digit c then Some (drop_digits s') else None
  | [] => None
  end.

(** [int = zero / ( digit1-9 *DIGIT )] *)
Definition p_int (s : pystr) : option pystr :=
  match s with
  | c :: s' =>
      if (c =? 48)%N then Some s'
      else if is_digit c then Some (drop_digits s') else None
  | [] => None
  end.

(** [[ frac ]] with [frac = decimal-point 1*DIGIT] *)
Definition p_frac (s : pystr) : option pystr :=
  match s with
  | c :: s' => if (c =? 46)%N then p_digits1 s' else Some s
  | [] => Some []
  end.

(** [[ exp ]] with [exp = e [ minus / plus ] 1*DIGIT] *)
Definition p_exp (s : pystr) : option pystr :=
  match s with
  | c :: s' =>
      if ((c =? 101) || (c =? 69))%N then
        match s' with
        | d :: s'' => if ((d =? 43) || (d =? 45))%N then p_digits1 s'' else p_digits1 s'
        | [] => None
        end
      else Some s
  | [] => Some []
  end.

Definition p_opt_minus (s : pystr) : pystr :=
  match s with
  | c :: s' => if (c =? 45)%N then s' else s
  | [] => []
  end.

(** [number = [ minus ] int [ frac ] [ exp ]] *)
Definition p_num (s : pystr) : option pystr :=
  match p_int (p_opt_minus s) with
  | Some s2 => match p_frac s2 with Some s3 => p_exp s3 | None => None end
  | None => None
  end.

(** A whole string is one JSON number. *)
Definition json_number (s : pystr) : bool :=
  match p_num s with Some [] => true | _ => false end.






End Json.

(** ** Measures on documents *)



(** [", ".join(parts)]. *)
Definition join (parts : list pystr) : pystr :=
  match parts with
  | [] => []
  | x :: xs => x ++ flat_map (fun y => comma_sep ++ y) xs
  end.

Definition printable (c : N) : Prop := (32 <= c <= 126)%N.

Definition success_trace (image_path : pystr) : list event :=
  [EvLoadModel model_name; EvLoadProcessor model_name; EvOpen image_path;
   EvConvert (pstr "RGB"); EvPreprocess; EvInfer].

(** Every library call before inference returns normally, with these
    handles. *)
Definition calls_ok (w : World) (image_path : pystr) (m p i0 i1 x : handle) : Prop :=
  w_load_model w model_name = Ok m /\ w_load_processor w model_name = Ok p /\
  w_open w image_path = Ok i0 /\ w_convert w i0 (pstr "RGB") = Ok i1 /\
  w_preprocess w p i1 = Ok x.


(** [f] consumes a prefix of printable characters. *)
Definition eats_printable (f : pystr -> option pystr) : Prop :=
  forall s u, f s = Some u -> exists pre, s = pre ++ u /\ Forall printable pre.


(** One ["key": value] member of a [json.dumps] object. *)
Definition enc_item (float_repr : R -> pystr) (kv : pystr * pyval) : pystr :=
  enc_str (fst kv) ++ colon_sep ++ dumps float_repr (snd kv).

(** ** Concrete environments *)

(** Every library call succeeds; the model returns the feature rows
    [feats]; the norm and the quotients are exact (no rounding). *)
Definition world_ok (torch pil : bool) (ti : option exn) (feats : list (list fl)) : World := {|
  torch_installed := torch;
  pil_installed := pil;
  transformers_import := ti;
  w_load_model := fun _ => Ok 1;
  w_load_processor := fun _ => Ok 2;
  w_open := fun _ => Ok 3;
  w_convert := fun _ _ => Ok 4;
  w_preprocess := fun _ _ => Ok 5;
  w_features := fun _ _ => Ok feats;
  w_norm := fun xs => Fin (sqrt (sum_sq xs));
  w_round := Fin
|}.

(** Like [world_ok], but [Image.open] raises [e]. *)
Definition world_open_raises (e : exn) : World := {|
  torch_installed := true;
  pil_installed := true;
  transformers_import := None;
  w_load_model := fun _ => Ok 1;
  w_load_processor := fun _ => Ok 2;
  w_open := fun _ => Err e;
  w_convert := fun _ _ => Ok 4;
  w_preprocess := fun _ _ => Ok 5;
  w_features := fun _ _ => Ok [];
  w_norm := fun xs => Fin (sqrt (sum_sq xs));
  w_round := Fin
|}.

Definition file_not_found : exn :=
  Exn OtherException (StrOk (pstr "[Errno 2] No such file or directory: 'missing.png'")).

Definition keyboard_interrupt : exn := Exn BaseOnly (StrOk []).

Definition transformers_missing : exn := module_not_found "transformers".

(** A unit feature row of length 512. *)
Definition unit_row : list fl := Fin 1 :: repeat (Fin 0) 511.

(** A stand-in for [float.__repr__] in concrete runs. *)
Definition repr_stub (_ : R) : pystr := pstr "0.0".

(** Induction on documents, through the nested lists and dicts. *)
Section Pyval_ind.
Variable P : pyval -> Prop.
Hypothesis HStr : forall s, P (PStr s).
Hypothesis HFloat : forall f, P (PFloat f).
Hypothesis HList : forall l, Forall P l -> P (PList l).
Hypothesis HDict : forall kvs, Forall (fun kv => P (snd kv)) kvs -> P (PDict kvs).

Fixpoint pyval_ind' (v : pyval) : P v :=
  match v with
  | PStr s => HStr s
  | PFloat f => HFloat f
  | PList l =>
      HList l ((fix go (l : list pyval) : Forall P l :=
                  match l with
                  | [] => Forall_nil _
                  | x :: l' => Forall_cons _ (pyval_ind' x) (go l')
                  end) l)
  | PDict kvs =>
      HDict kvs ((fix go (kvs : list (pystr * pyval)) : Forall (fun kv => P (snd kv)) kvs :=
                    match kvs with
                    | [] => Forall_nil _
                    | kv :: kvs' => Forall_cons _ (pyval_ind' (snd kv)) (go kvs')
                    end) kvs)
  end.
End Pyval_ind.

Ltac eval_list :=
  match goal with |- Forall _ ?l => let l' := eval vm_compute in l in change l with l' end.

Ltac lit_printable :=
  repeat (apply Forall_cons; [unfold printable; lia|]); apply Forall_nil.

(** ** Program-level facts *)

(** C2: the placeholder document when transformers is unavailable. *)
Lemma process_image_fallback : forall w image_path t,
  process_image w false image_path t =
  (Ok (PDict [(pstr "caption", PStr (pstr "Image: " ++ image_path));
              (pstr "embedding", PList (repeat (PFloat (Fin 0)) 512))]), t).
Proof. reflexivity. Qed.

(** C7: with transformers unavailable, [process_image] makes no library
    call at all: the trace, and in particular any [Image.open] of the path,
    is left unchanged. *)
Lemma process_image_fallback_no_access : forall w image_path t,
  snd (process_image w false image_path t) = t /\
  ~ In (EvOpen image_path) (snd (process_image w false image_path [])).
Proof. intros w image_path t. split; [reflexivity | simpl; tauto]. Qed.

Lemma clip_body_shape : forall w image_path t d t',
  clip_body w image_path t = (Ok d, t') ->
  exists emb, d = doc (pstr "Image from " ++ image_path) (PList (map PFloat emb)).
Proof.
  intros w image_path t d t' H.
  unfold clip_body, bind, lib, ret, raise, index0 in H.
  repeat match type of H with
  | context [match ?x with Ok _ => _ | Err _ => _ end] => destruct x
  | context [match ?x with [] => _ | _ :: _ => _ end] => destruct x
  end; try discriminate.
  injection H as <- _. eexists. reflexivity.
Qed.

(** C9: whatever [process_image] returns is a dict with exactly the keys
    "caption" and "embedding", a [str] caption and a list of floats as
    embedding. *)
Lemma process_image_result_shape : forall w HAS_CLIP image_path t d t',
  process_image w HAS_CLIP image_path t = (Ok d, t') ->
  exists caption emb,
    d = PDict [(pstr "caption", PStr caption); (pstr "embedding", PList emb)] /\
    Forall (fun x => exists f, x = PFloat f) emb.
Proof.
  intros w [|] image_path t d t' H.
  - unfold process_image, try_except in H; simpl in H.
    destruct (clip_body w image_path t) as [[d0|e] t0] eqn:Hb.
    + injection H as <- _.
      destruct (clip_body_shape _ _ _ _ _ Hb) as [emb ->].
      do 2 eexists; split; [reflexivity|].
      apply Forall_map, Forall_forall. intros x _. eauto.
    + unfold clip_handler in H.
      destruct (is_Exception (exn_kind_of e)); [|discriminate].
      destruct e as [k [m|e']]; [|discriminate].
      injection H as <- _.
      do 2 eexists; split; [reflexivity|].
      apply Forall_forall. intros x Hx. apply repeat_spec in Hx. eauto.
  - injection H as <- _.
    do 2 eexists; split; [reflexivity|].
    apply Forall_forall. intros x Hx. apply repeat_spec in Hx. eauto.
Qed.

(** C10: only [argv[1]] matters; [argv[0]] and arguments after the first
    positional one do not change the process's output, exit status or
    library calls. *)
Lemma run_ignores_extra_args : forall float_repr w a0 b0 image_path rest1 rest2,
  run float_repr w (a0 :: image_path :: rest1) = run float_repr w (b0 :: image_path :: rest2).
Proof. reflexivity. Qed.

Lemma clip_body_trace : forall w image_path,
  exists t', snd (clip_body w image_path []) = EvLoadModel model_name :: t'.
Proof.
  intros w image_path.
  unfold clip_body, bind, lib, ret, raise, index0.
  repeat match goal with
  | |- context [match ?x with Ok _ => _ | Err _ => _ end] => destruct x
  | |- context [match ?x with [] => _ | _ :: _ => _ end] => destruct x
  end; simpl; eauto.
Qed.

Lemma clip_handler_trace : forall e t, snd (clip_handler e t) = t.
Proof.
  intros [k [m|e']] t; unfold clip_handler; simpl;
    destruct (is_Exception k); reflexivity.
Qed.

Lemma process_image_clip_trace : forall w image_path,
  snd (process_image w true image_path []) <> [].
Proof.
  intros w image_path. unfold process_image, try_except; simpl.
  destruct (clip_body_trace w image_path) as [t' Ht].
  destruct (clip_body w image_path []) as [[d|e] t0]; simpl in *; subst.
  - discriminate.
  - rewrite clip_handler_trace. discriminate.
Qed.

Lemma die_trace : forall out err e tr, p_trace (die out err e tr) = tr.
Proof. intros out err [k s] tr. unfold die. destruct k as [| | | []]; reflexivity. Qed.

Lemma die_stdout : forall out err e tr, p_stdout (die out err e tr) = out.
Proof. intros out err [k s] tr. unfold die. simpl. destruct k as [| | | []]; reflexivity. Qed.

(** C8: [import torch] and [from PIL import Image] run unguarded: when
    either module is missing the script dies with an uncaught ImportError
    before looking at its arguments (and prints nothing on stdout).  With
    both present, the placeholder document is printed (with no library
    call) exactly when [from transformers import ...] raised ImportError. *)
Lemma imports_gate_fallback : forall float_repr w argv,
  (torch_installed w = false ->
     run float_repr w argv =
     mkProc [] (traceback_text (module_not_found "torch"))
            (Uncaught (module_not_found "torch")) []) /\
  (torch_installed w = true -> pil_installed w = false ->
     run float_repr w argv =
     mkProc [] (traceback_text (module_not_found "PIL"))
            (Uncaught (module_not_found "PIL")) []) /\
  (torch_installed w = true -> pil_installed w = true -> 2 <= List.length argv ->
     (p_stdout (run float_repr w argv) =
        dumps float_repr (doc (pstr "Image: " ++ nth 1 argv []) zeros512) ++ nl /\
      p_trace (run float_repr w argv) = [])
     <-> exists e, transformers_import w = Some e /\ exn_kind_of e = ImportError).
Proof.
  intros float_repr w argv. split; [|split].
  - intro Ht. unfold run. rewrite Ht. reflexivity.
  - intros Ht Hp. unfold run. rewrite Ht, Hp. reflexivity.
  - intros Ht Hp Hlen. unfold run. rewrite Ht, Hp. cbn [negb].
    assert (Hl : Nat.ltb (List.length argv) 2 = false) by (apply Nat.ltb_ge; lia).
    destruct (transformers_import w) as [e|].
    + destruct (exn_kind_of e) eqn:Hk.
      * unfold main. rewrite Hl. split; [intros _; eauto | intros _; split; reflexivity].
      * split; [|intros (e' & He & Hk'); injection He as <-; congruence].
        rewrite die_stdout. intros [H _]. destruct (app_cons_not_nil _ _ _ H).
      * split; [|intros (e' & He & Hk'); injection He as <-; congruence].
        rewrite die_stdout. intros [H _]. destruct (app_cons_not_nil _ _ _ H).
      * split; [|intros (e' & He & Hk'); injection He as <-; congruence].
        rewrite die_stdout. intros [H _]. destruct (app_cons_not_nil _ _ _ H).
    + split; [|intros (e' & He & _); discriminate].
      intros [_ Htr]. exfalso. unfold main in Htr. rewrite Hl in Htr.
      pose proof (process_image_clip_trace w (nth 1 argv [])) as Hne.
      destruct (process_image w true (nth 1 argv []) []) as [[d|e] tr] eqn:E;
        cbn [snd p_trace] in *.
      * congruence.
      * rewrite die_trace in Htr. congruence.
Qed.


Lemma die_status : forall out err e tr,
  p_status (die out err e tr) = p_status (die [] [] e tr).
Proof. intros out err [k s] tr. unfold die. destruct k as [| | | []]; reflexivity. Qed.

(** Once torch and PIL are imported and the transformers import either
    succeeded or raised ImportError, the script is its [__main__] block. *)
Lemma run_main : forall float_repr w argv,
  torch_installed w = true -> pil_installed w = true ->
  (forall e, transformers_import w = Some e -> exn_kind_of e = ImportError) ->
  run float_repr w argv =
    main float_repr w (match transformers_import w with None => true | Some _ => false end)
         (match transformers_import w with None => [] | Some _ => warning_text end) argv.
Proof.
  intros float_repr w argv Ht Hp Hti. unfold run. rewrite Ht, Hp. cbn [negb].
  destruct (transformers_import w) as [e|]; [rewrite (Hti e eq_refl)|]; reflexivity.
Qed.




(** C1 (amended): when the modules import and the [try] block raises
    [e], three cases arise.  If [e] is an instance of [Exception] (file not
    found, decode or model errors, an empty batch) and [str(e)] succeeds,
    [process_image] returns the document with caption
    "Error processing image: " ++ str(e) and 512 zero floats; the script
    prints it and exits 0.  If [e] is an [Exception] but [str(e)] raises
    [e'], then [e'] leaves [process_image].  If [e] is not an [Exception]
    (KeyboardInterrupt, SystemExit, GeneratorExit), [e] itself leaves
    [process_image] unchanged and reaches the top level: nothing is printed
    on stdout, and the script dies with [e] unless [e] is a SystemExit. *)
Lemma exception_caught : forall float_repr w a0 image_path rest e t',
  torch_installed w = true -> pil_installed w = true -> transformers_import w = None ->
  clip_body w image_path [] = (Err e, t') ->
  (forall k m, e = Exn k (StrOk m) -> is_Exception k = true ->
     process_image w true image_path [] =
       (Ok (PDict [(pstr "caption", PStr (pstr "Error processing image: " ++ m));
                   (pstr "embedding", PList (repeat (PFloat (Fin 0)) 512))]), t') /\
     p_stdout (run float_repr w (a0 :: image_path :: rest)) =
       dumps float_repr (doc (pstr "Error processing image: " ++ m) zeros512) ++ nl /\
     p_status (run float_repr w (a0 :: image_path :: rest)) = Exited 0 /\
     p_trace (run float_repr w (a0 :: image_path :: rest)) = t') /\
  (forall k e', e = Exn k (StrRaises e') -> is_Exception k = true ->
     process_image w true image_path [] = (Err e', t')) /\
  (is_Exception (exn_kind_of e) = false ->
     process_image w true image_path [] = (Err e, t') /\
     p_stdout (run float_repr w (a0 :: image_path :: rest)) = [] /\
     p_trace (run float_repr w (a0 :: image_path :: rest)) = t' /\
     p_status (run float_repr w (a0 :: image_path :: rest)) = p_status (die [] [] e t') /\
     ((forall c, exn_kind_of e <> SysExit c) ->
        p_status (run float_repr w (a0 :: image_path :: rest)) = Uncaught e)).
Proof.
  intros float_repr w a0 image_path rest e t' Ht Hp Hti Hb.
  assert (Hrun : run float_repr w (a0 :: image_path :: rest) =
                 main float_repr w true [] (a0 :: image_path :: rest)).
  { unfold run. rewrite Ht, Hp, Hti. reflexivity. }
  rewrite Hrun. unfold main. cbn [Nat.ltb List.length nth]. simpl (Nat.leb _ _).
  assert (Hpi : process_image w true image_path [] = clip_handler e t').
  { unfold process_image, try_except. cbn [negb]. rewrite Hb. reflexivity. }
  split; [|split].
  - intros k m -> Hk.
    assert (Hd : process_image w true image_path [] =
                 (Ok (doc (pstr "Error processing image: " ++ m) zeros512), t')).
    { rewrite Hpi. unfold clip_handler. cbn [exn_kind_of]. rewrite Hk. reflexivity. }
    split; [exact Hd|]. rewrite Hd. repeat split.
  - intros k e' -> Hk. rewrite Hpi. unfold clip_handler. cbn [exn_kind_of]. rewrite Hk.
    reflexivity.
  - intro Hk.
    assert (Hd : process_image w true image_path [] = (Err e, t')).
    { rewrite Hpi. unfold clip_handler. rewrite Hk. reflexivity. }
    split; [exact Hd|]. rewrite Hd.
    split; [apply die_stdout|]. split; [apply die_trace|]. split; [apply die_status|].
    intro Hs. destruct e as [k s]. cbn [exn_kind_of] in Hs |- *. unfold die. cbn [exn_kind_of].
    destruct k as [| | | c]; [reflexivity | reflexivity | reflexivity | destruct (Hs c eq_refl)].
Qed.

Lemma exception_caught_witness :
  p_status (run repr_stub (world_open_raises file_not_found)
                [pstr "clip2_process.py"; pstr "missing.png"]) = Exited 0 /\
  p_status (run repr_stub (world_open_raises keyboard_interrupt)
                [pstr "clip2_process.py"; pstr "img.png"]) = Uncaught keyboard_interrupt.
Proof.
  split.
  - destruct (exception_caught repr_stub (world_open_raises file_not_found)
       (pstr "clip2_process.py") (pstr "missing.png") [] file_not_found
       [EvLoadModel model_name; EvLoadProcessor model_name; EvOpen (pstr "missing.png")]
       eq_refl eq_refl eq_refl eq_refl) as [H _].
    exact (proj1 (proj2 (proj2 (H OtherException
       (pstr "[Errno 2] No such file or directory: 'missing.png'") eq_refl eq_refl)))).
  - destruct (exception_caught repr_stub (world_open_raises keyboard_interrupt)
       (pstr "clip2_process.py") (pstr "img.png") [] keyboard_interrupt
       [EvLoadModel model_name; EvLoadProcessor model_name; EvOpen (pstr "img.png")]
       eq_refl eq_refl eq_refl eq_refl) as (_ & _ & H).
    destruct (H eq_refl) as (_ & _ & _ & _ & Hu).
    apply Hu. intros c C. discriminate C.
Defined.

(** C1 counterexample: a KeyboardInterrupt raised while opening the image
    is not an [Exception]; it leaves [process_image] and the script dies
    without printing a document. *)
Lemma exception_caught_cex :
  fst (process_image (world_open_raises keyboard_interrupt) true (pstr "img.png") []) =
    Err keyboard_interrupt /\
  p_status (run repr_stub (world_open_raises keyboard_interrupt)
              [pstr "clip2_process.py"; pstr "img.png"]) = Uncaught keyboard_interrupt /\
  p_stdout (run repr_stub (world_open_raises keyboard_interrupt)
              [pstr "clip2_process.py"; pstr "img.png"]) = [].
Proof. repeat split; reflexivity. Qed.

Lemma imports_gate_fallback_witness :
  p_stdout (run repr_stub (world_ok true true (Some transformers_missing) [])
               [pstr "clip2_process.py"; pstr "a.png"]) =
    dumps repr_stub (doc (pstr "Image: " ++ pstr "a.png") zeros512) ++ nl.
Proof.
  apply (proj2 (proj2 (imports_gate_fallback repr_stub
            (world_ok true true (Some transformers_missing) [])
            [pstr "clip2_process.py"; pstr "a.png"])) eq_refl eq_refl).
  - simpl; lia.
  - exists transformers_missing. split; reflexivity.
Defined.

Lemma process_image_result_shape_witness :
  exists caption emb,
    doc (pstr "Image: a.png") zeros512 =
      PDict [(pstr "caption", PStr caption); (pstr "embedding", PList emb)] /\
    Forall (fun x => exists f, x = PFloat f) emb.
Proof.
  apply (process_image_result_shape (world_ok true true None []) false (pstr "a.png") [] _ []).
  reflexivity.
Defined.

(** ** Normalization *)

Lemma sum_sq_nonneg : forall xs, (0 <= sum_sq xs)%R.
Proof.
  induction xs as [|x xs IH]; simpl; [lra|].
  pose proof (Rle_0_sqr x) as Hx. unfold Rsqr in Hx. lra.
Qed.

Lemma sum_sq_div : forall xs d, d <> 0%R ->
  sum_sq (map (fun x => (x / d)%R) xs) = (sum_sq xs / (d * d))%R.
Proof.
  intros xs d Hd. induction xs as [|x xs IH]; simpl.
  - field. exact Hd.
  - rewrite IH. field. exact Hd.
Qed.

Lemma finite_no_nan : forall row, forallb is_finite row = true -> existsb is_nan row = false.
Proof. induction row as [|[r| |] row IH]; simpl; intros H; try discriminate; auto. Qed.

Lemma finite_no_inf : forall row, forallb is_finite row = true -> existsb is_inf row = false.
Proof. induction row as [|[r| |] row IH]; simpl; intros H; try discriminate; auto. Qed.

Lemma sum_sq_zeros : forall n, sum_sq (fin_vals (repeat (Fin 0) n)) = 0%R.
Proof. induction n as [|n IH]; simpl; [reflexivity|]. rewrite IH. ring. Qed.

Lemma unit_row_sum : sum_sq (fin_vals unit_row) = 1%R.
Proof.
  unfold unit_row. cbn [fin_vals flat_map sum_sq app].
  fold (flat_map (fun x => match x with Fin r => [r] | _ => [] end) (repeat (Fin 0) 511)).
  change (flat_map _ (repeat (Fin 0) 511)) with (fin_vals (repeat (Fin 0) 511)).
  rewrite sum_sq_zeros. ring.
Qed.

Lemma fdiv_nan_r : forall w x, fdiv w x NaN = NaN.
Proof. intros w [r|a|]; reflexivity. Qed.

Lemma map_fdiv_nan : forall w l, map (fun x => fdiv w x NaN) l = repeat NaN (List.length l).
Proof.
  intro w. induction l as [|y l IH]; [reflexivity|].
  cbn [map repeat List.length]. rewrite fdiv_nan_r, IH. reflexivity.
Qed.

Lemma map_fdiv_zero : forall w l, forallb is_finite l = true ->
  Forall (fun f => f = NaN \/ is_inf f = true) (map (fun x => fdiv w x (Fin 0)) l).
Proof.
  intro w. induction l as [|[r| |] l IH]; intro H; try discriminate; [apply Forall_nil|].
  cbn [map]. apply Forall_cons; [|apply IH, H].
  unfold fdiv. destruct (Req_dec_T 0 0) as [_|C]; [|contradiction].
  destruct (Req_dec_T r 0); [left; reflexivity | right; reflexivity].
Qed.

(** One rounded quotient: a relative error of at most [u] bounds its
    square. *)
Lemma entry_bounds : forall e q u, (0 <= u <= 1)%R -> (Rabs (e - q) <= u * Rabs q)%R ->
  ((1 - u) * (1 - u) * (q * q) <= e * e <= (1 + u) * (1 + u) * (q * q))%R.
Proof.
  intros e q u Hu H.
  pose proof (Rabs_triang_inv q e) as T1. pose proof (Rabs_triang_inv e q) as T2.
  rewrite Rabs_minus_sym in T1. pose proof (Rabs_pos q).
  assert (Hl : (Rabs ((1 - u) * q) <= Rabs e)%R).
  { rewrite Rabs_mult, (Rabs_right (1 - u)) by lra. nra. }
  assert (Hh : (Rabs e <= Rabs ((1 + u) * q))%R).
  { rewrite Rabs_mult, (Rabs_right (1 + u)) by lra. nra. }
  apply Rsqr_le_abs_1 in Hl. apply Rsqr_le_abs_1 in Hh. unfold Rsqr in Hl, Hh.
  split; nra.
Qed.

Lemma quot_sum : forall w row n u, forallb is_finite row = true -> n <> 0%R ->
  (0 <= u <= 1)%R ->
  (forall r, In r (fin_vals row) ->
     exists e, w_round w (r / n) = Fin e /\ (Rabs (e - r / n) <= u * Rabs (r / n))%R) ->
  forallb is_finite (map (fun f => fdiv w f (Fin n)) row) = true /\
  ((1 - u) * (1 - u) * sum_sq (map (fun r => r / n) (fin_vals row)) <=
     sum_sq (fin_vals (map (fun f => fdiv w f (Fin n)) row)) <=
   (1 + u) * (1 + u) * sum_sq (map (fun r => r / n) (fin_vals row)))%R.
Proof.
  intros w row n u Hfin Hn Hu. induction row as [|[r| |] row IH]; intro Hr;
    try discriminate; [simpl; split; [reflexivity | lra]|].
  cbn [forallb is_finite andb] in Hfin.
  destruct (Hr r (or_introl eq_refl)) as (e & He & Hb).
  destruct (IH Hfin (fun r' Hin => Hr r' (or_intror Hin))) as [IH1 IH2].
  assert (Hd : fdiv w (Fin r) (Fin n) = Fin e).
  { unfold fdiv. destruct (Req_dec_T n 0); [contradiction | exact He]. }
  cbn [map]. rewrite Hd. cbn [forallb is_finite andb]. split; [exact IH1|].
  change (fin_vals (Fin e :: map (fun f => fdiv w f (Fin n)) row))
    with (e :: fin_vals (map (fun f => fdiv w f (Fin n)) row)).
  change (fin_vals (Fin r :: row)) with (r :: fin_vals row).
  cbn [map sum_sq]. pose proof (entry_bounds e (r / n) u Hu Hb). lra.
Qed.

Lemma process_image_features : forall w p t m pr i0 i1 x rows,
  calls_ok w p m pr i0 i1 x -> w_features w m x = Ok rows ->
  process_image w true p t =
    (match normalize_rows w rows with
     | emb :: _ => Ok (doc (pstr "Image from " ++ p) (PList (map PFloat emb)))
     | [] => Ok (doc (pstr "Error processing image: " ++
                      pstr "index 0 is out of bounds for dimension 0 with size 0") zeros512)
     end, t ++ success_trace p).
Proof.
  intros w p t m pr i0 i1 x rows (Hm & Hp & Ho & Hc & Hpre) Hf.
  unfold process_image, try_except, clip_body, bind, lib, ret, raise, index0.
  rewrite Hm, Hp, Ho, Hc, Hpre, Hf. cbn [negb].
  unfold success_trace. rewrite <- !app_assoc.
  destruct (normalize_rows w rows); reflexivity.
Qed.

(** C4 (amended): when every library call succeeds and the model returns
    feature rows [row :: rows], [process_image] loads the fixed checkpoint
    (model and processor), opens the path, converts the image to RGB, runs
    one inference and returns {"caption": "Image from " ++ path,
    "embedding": emb}, where emb divides each entry of the first row by
    torch's norm of that row.  emb has the length of the row; a NaN in the
    row makes every entry NaN; a finite row whose computed norm is 0 (an
    all-zero row, or one whose squares underflow) gives only NaN and
    infinite entries.  When the computed norm is within relative error
    [eta] of the exact Euclidean norm and each quotient is rounded with
    relative error at most [u], the entries are finite and their sum of
    squares lies between (1-u)^2/(1+eta)^2 and (1+u)^2/(1-eta)^2. *)
Lemma clip_success : forall w image_path t m p i0 i1 x row rows,
  calls_ok w image_path m p i0 i1 x -> w_features w m x = Ok (row :: rows) ->
  let emb := map (fun f => fdiv w f (row_norm w row)) row in
  process_image w true image_path t =
    (Ok (doc (pstr "Image from " ++ image_path) (PList (map PFloat emb))),
     t ++ success_trace image_path) /\
  List.length emb = List.length row /\
  (existsb is_nan row = true -> emb = repeat NaN (List.length row)) /\
  (forallb is_finite row = true -> row_norm w row = Fin 0 ->
     Forall (fun f => f = NaN \/ is_inf f = true) emb) /\
  (forall n u eta,
     forallb is_finite row = true -> row_norm w row = Fin n ->
     (0 < sqrt (sum_sq (fin_vals row)))%R ->
     (Rabs (n - sqrt (sum_sq (fin_vals row))) <= eta * sqrt (sum_sq (fin_vals row)))%R ->
     (0 <= eta < 1)%R -> (0 <= u <= 1)%R ->
     (forall r, In r (fin_vals row) ->
        exists e, w_round w (r / n) = Fin e /\ (Rabs (e - r / n) <= u * Rabs (r / n))%R) ->
     forallb is_finite emb = true /\
     ((1 - u) * (1 - u) <= (1 + eta) * (1 + eta) * sum_sq (fin_vals emb))%R /\
     ((1 - eta) * (1 - eta) * sum_sq (fin_vals emb) <= (1 + u) * (1 + u))%R).
Proof.
  intros w image_path t m p i0 i1 x row rows Hok Hf emb.
  split; [rewrite (process_image_features w image_path t m p i0 i1 x _ Hok Hf); reflexivity|].
  split; [apply length_map|].
  split; [intro Hn; unfold emb, row_norm; rewrite Hn; apply map_fdiv_nan|].
  split; [intros Hfin H0; unfold emb; rewrite H0; apply map_fdiv_zero, Hfin|].
  intros n u eta Hfin Hnorm HN Hacc Heta Hu Hr.
  assert (HS : sum_sq (fin_vals row) = (sqrt (sum_sq (fin_vals row)) * sqrt (sum_sq (fin_vals row)))%R)
    by (rewrite sqrt_sqrt; [reflexivity | apply sum_sq_nonneg]).
  remember (sqrt (sum_sq (fin_vals row))) as N eqn:HNdef.
  clear HNdef.
  assert (Hn : (0 < n)%R).
  { unfold Rabs in Hacc. destruct (Rcase_abs (n - N)); nra. }
  unfold emb. rewrite Hnorm.
  destruct (quot_sum w row n u Hfin (Rgt_not_eq _ _ Hn) Hu Hr) as [H1 [H2 H3]].
  split; [exact H1|].
  rewrite sum_sq_div in H2, H3 by lra.
  rewrite HS in H2, H3.
  assert (HT : (N * N / (n * n) * (n * n) = N * N)%R) by (field; lra).
  assert (HT0 : (0 <= N * N / (n * n))%R) by (apply Rle_mult_inv_pos; nra).
  remember (sum_sq (fin_vals (map (fun f => fdiv w f (Fin n)) row))) as E eqn:HE.
  remember (N * N / (n * n))%R as T eqn:HTdef.
  clear HTdef HE.
  assert (Hb1 : (n <= N * (1 + eta))%R) by (unfold Rabs in Hacc; destruct (Rcase_abs (n - N)); nra).
  assert (Hb2 : (N * (1 - eta) <= n)%R) by (unfold Rabs in Hacc; destruct (Rcase_abs (n - N)); nra).
  assert (Hn2 : (0 < n * n)%R) by nra.
  assert (HT1 : (1 <= T * ((1 + eta) * (1 + eta)))%R).
  { apply (Rmult_le_reg_r (n * n)); [exact Hn2|].
    replace (T * ((1 + eta) * (1 + eta)) * (n * n))%R
      with ((N * (1 + eta)) * (N * (1 + eta)))%R
      by (transitivity (T * (n * n) * ((1 + eta) * (1 + eta)))%R; [rewrite HT; ring | ring]).
    assert (0 <= N * (1 + eta) - n)%R by lra.
    assert (0 <= N * (1 + eta) + n)%R by lra. nra. }
  assert (HT2 : (T * ((1 - eta) * (1 - eta)) <= 1)%R).
  { apply (Rmult_le_reg_r (n * n)); [exact Hn2|].
    replace (T * ((1 - eta) * (1 - eta)) * (n * n))%R
      with ((N * (1 - eta)) * (N * (1 - eta)))%R
      by (transitivity (T * (n * n) * ((1 - eta) * (1 - eta)))%R; [rewrite HT; ring | ring]).
    assert (0 <= n - N * (1 - eta))%R by lra.
    assert (0 <= N * (1 - eta))%R by nra. nra. }
  split.
  - assert (A : ((1 - u) * (1 - u) * 1 <= (1 - u) * (1 - u) * (T * ((1 + eta) * (1 + eta))))%R)
      by (apply Rmult_le_compat_l; [nra | exact HT1]).
    assert (B : ((1 - u) * (1 - u) * T * ((1 + eta) * (1 + eta)) <= E * ((1 + eta) * (1 + eta)))%R)
      by (apply Rmult_le_compat_r; [nra | exact H2]).
    lra.
  - assert (A : ((1 - eta) * (1 - eta) * E <= (1 - eta) * (1 - eta) * ((1 + u) * (1 + u) * T))%R)
      by (apply Rmult_le_compat_l; [nra | exact H3]).
    assert (B : ((1 + u) * (1 + u) * (T * ((1 - eta) * (1 - eta))) <= (1 + u) * (1 + u) * 1)%R)
      by (apply Rmult_le_compat_l; [nra | exact HT2]).
    lra.
Qed.

Lemma clip_success_witness :
  process_image (world_ok true true None [unit_row]) true (pstr "cat.png") [] =
    (Ok (doc (pstr "Image from " ++ pstr "cat.png")
             (PList (map PFloat (map (fun f => fdiv (world_ok true true None [unit_row]) f
                                   (row_norm (world_ok true true None [unit_row]) unit_row))
                                 unit_row)))),
     [] ++ success_trace (pstr "cat.png")) /\
  ((1 - 0) * (1 - 0) <= (1 + 0) * (1 + 0) *
     sum_sq (fin_vals (map (fun f => fdiv (world_ok true true None [unit_row]) f
                          (row_norm (world_ok true true None [unit_row]) unit_row)) unit_row)))%R.
Proof.
  assert (Hok : calls_ok (world_ok true true None [unit_row]) (pstr "cat.png") 1 2 3 4 5)
    by (repeat split).
  assert (Hfin : forallb is_finite unit_row = true) by reflexivity.
  assert (Hnorm : row_norm (world_ok true true None [unit_row]) unit_row = Fin 1).
  { unfold row_norm. rewrite (finite_no_nan _ Hfin), (finite_no_inf _ Hfin).
    cbn [world_ok w_norm]. rewrite unit_row_sum, sqrt_1. reflexivity. }
  destruct (clip_success (world_ok true true None [unit_row]) (pstr "cat.png") [] 1 2 3 4 5
              unit_row [] Hok eq_refl) as (Ha & _ & _ & _ & He).
  split; [exact Ha|].
  destruct (He 1%R 0%R 0%R Hfin Hnorm) as (_ & Hb & _).
  - rewrite unit_row_sum, sqrt_1. lra.
  - rewrite unit_row_sum, sqrt_1, Rminus_diag, Rabs_R0. lra.
  - lra.
  - lra.
  - intros r _. exists (r / 1)%R. split; [reflexivity|].
    rewrite Rminus_diag, Rabs_R0. lra.
  - exact Hb.
Defined.

Lemma normalize_zero_row : forall w n, w_norm w (fin_vals (repeat (Fin 0) n)) = Fin 0 ->
  normalize_rows w [repeat (Fin 0) n] = [repeat NaN n].
Proof.
  intros w n H0. unfold normalize_rows, row_norm. simpl map.
  assert (Hn : forall k, existsb is_nan (repeat (Fin 0) k) = false)
    by (induction k as [|k IH]; [reflexivity | exact IH]).
  assert (Hi : forall k, existsb is_inf (repeat (Fin 0) k) = false)
    by (induction k as [|k IH]; [reflexivity | exact IH]).
  rewrite Hn, Hi, H0, map_repeat. unfold fdiv.
  destruct (Req_dec_T 0 0) as [_|C]; [reflexivity | contradiction].
Qed.

Lemma world_ok_zero_norm : forall ti n,
  w_norm (world_ok true true ti [repeat (Fin 0) 512]) (fin_vals (repeat (Fin 0) n)) = Fin 0.
Proof. intros ti n. cbn [world_ok w_norm]. rewrite sum_sq_zeros, sqrt_0. reflexivity. Qed.

(** C4 counterexample: an all-zero feature row has norm 0 (in float32 as
    well); every entry becomes 0/0 = NaN, so the embedding has no norm
    close to 1. *)
Lemma clip_success_cex :
  process_image (world_ok true true None [repeat (Fin 0) 512]) true (pstr "cat.png") [] =
    (Ok (doc (pstr "Image from " ++ pstr "cat.png") (PList (map PFloat (repeat NaN 512)))),
     success_trace (pstr "cat.png")) /\
  forallb is_finite (repeat NaN 512) = false.
Proof.
  split; [|reflexivity].
  unfold process_image, try_except, clip_body, bind, lib, ret, index0.
  cbn [negb world_ok w_load_model w_load_processor w_open w_convert w_preprocess w_features].
  rewrite normalize_zero_row by apply world_ok_zero_norm. reflexivity.
Qed.

(** ** JSON output *)






Lemma dumps_PList : forall fr l,
  dumps fr (PList l) = 91%N :: join (map (dumps fr) l) ++ [93%N].
Proof.
  intros fr [|x l]; [reflexivity|]. cbn [dumps map join].
  do 2 f_equal. f_equal. induction l as [|y l IH]; [reflexivity|].
  cbn [map flat_map]. rewrite <- IH. reflexivity.
Qed.

Lemma dumps_PDict : forall fr kvs,
  dumps fr (PDict kvs) =
  123%N :: join (map (fun kv => enc_str (fst kv) ++ colon_sep ++ dumps fr (snd kv)) kvs)
        ++ [125%N].
Proof.
  intros fr [|kv kvs]; [reflexivity|]. cbn [dumps map join].
  do 2 f_equal. rewrite <- !app_assoc. do 2 f_equal. f_equal.
  induction kvs as [|kv' kvs IH]; [reflexivity|].
  cbn [map flat_map]. rewrite <- IH. rewrite <- !app_assoc. reflexivity.
Qed.

Import Json.

Lemma land15_cases : forall n, exists d, N.land n 15 = d /\ (d < 16)%N.
Proof.
  intro n. exists (N.land n 15). split; [reflexivity|].
  change 15%N with (N.ones 4). rewrite N.land_ones. apply N.mod_lt. discriminate.
Qed.


Lemma hexdig_printable : forall n, printable (hexdig (N.land n 15)).
Proof.
  intro n. destruct (land15_cases n) as (d & -> & Hd). unfold printable, hexdig.
  destruct (d <? 10)%N eqn:E; [apply N.ltb_lt in E | apply N.ltb_ge in E]; lia.
Qed.













Lemma digit_printable : forall c, is_digit c = true -> printable c.
Proof.
  intros c H. unfold is_digit in H. apply andb_true_iff in H as [H1 H2].
  apply N.leb_le in H1, H2. unfold printable. lia.
Qed.

Lemma drop_digits_split : forall s,
  exists pre, s = pre ++ drop_digits s /\ Forall printable pre.
Proof.
  induction s as [|c s (pre & Hs & Hp)]; [exists []; auto|]. simpl.
  destruct (is_digit c) eqn:E.
  - exists (c :: pre). rewrite Hs at 1. split; [reflexivity | constructor; auto].
    apply digit_printable, E.
  - exists []. auto.
Qed.

Lemma p_digits1_eats : eats_printable p_digits1.
Proof.
  intros [|c s] u H; simpl in H; [discriminate|].
  destruct (is_digit c) eqn:E; [|discriminate]. injection H as <-.
  destruct (drop_digits_split s) as (pre & Hs & Hp).
  exists (c :: pre). rewrite Hs at 1. split; [reflexivity | constructor; auto].
  apply digit_printable, E.
Qed.

Lemma p_int_eats : eats_printable p_int.
Proof.
  intros [|c s] u H; simpl in H; [discriminate|].
  destruct (c =? 48)%N eqn:E0.
  - injection H as <-. apply N.eqb_eq in E0. subst. exists [48%N].
    split; [reflexivity | constructor; [unfold printable; lia | constructor]].
  - destruct (is_digit c) eqn:E; [|discriminate]. injection H as <-.
    destruct (drop_digits_split s) as (pre & Hs & Hp).
    exists (c :: pre). rewrite Hs at 1. split; [reflexivity | constructor; auto].
    apply digit_printable, E.
Qed.

Lemma p_frac_eats : eats_printable p_frac.
Proof.
  intros [|c s] u H; simpl in H; [injection H as <-; exists []; auto|].
  destruct (c =? 46)%N eqn:E.
  - apply N.eqb_eq in E. subst. destruct (p_digits1_eats _ _ H) as (pre & -> & Hp).
    exists (46%N :: pre). split; [reflexivity | constructor; auto]. unfold printable; lia.
  - injection H as <-. exists []. auto.
Qed.

Lemma p_exp_eats : eats_printable p_exp.
Proof.
  intros [|c s] u H; simpl in H; [injection H as <-; exists []; auto|].
  destruct ((c =? 101) || (c =? 69))%N eqn:E; [|injection H as <-; exists []; auto].
  assert (Hc : printable c).
  { apply orb_true_iff in E as [E|E]; apply N.eqb_eq in E; subst; unfold printable; lia. }
  destruct s as [|d s]; [discriminate|].
  destruct ((d =? 43) || (d =? 45))%N eqn:Ed.
  - destruct (p_digits1_eats _ _ H) as (pre & -> & Hp).
    exists (c :: d :: pre). split; [reflexivity | constructor; [exact Hc | constructor; [|exact Hp]]].
    apply orb_true_iff in Ed as [Ed|Ed]; apply N.eqb_eq in Ed; subst; unfold printable; lia.
  - destruct (p_digits1_eats _ _ H) as (pre & Hs & Hp).
    exists (c :: pre). rewrite Hs. split; [reflexivity | constructor; auto].
Qed.

Lemma p_num_eats : eats_printable p_num.
Proof.
  intros s u H. unfold p_num in H.
  destruct (p_int (p_opt_minus s)) as [s2|] eqn:Ei; [|discriminate].
  destruct (p_frac s2) as [s3|] eqn:Ef; [|discriminate].
  destruct (p_exp_eats _ _ H) as (pre3 & -> & H3).
  destruct (p_frac_eats _ _ Ef) as (pre2 & -> & H2).
  destruct (p_int_eats _ _ Ei) as (pre1 & Hs1 & H1).
  assert (Hm : exists pre0, s = pre0 ++ p_opt_minus s /\ Forall printable pre0).
  { destruct s as [|c s]; [exists []; auto|]. simpl.
    destruct (c =? 45)%N eqn:E; [|exists []; auto].
    apply N.eqb_eq in E. subst. exists [45%N].
    split; [reflexivity | constructor; [unfold printable; lia | constructor]]. }
  destruct Hm as (pre0 & Hs0 & H0).
  exists (pre0 ++ pre1 ++ pre2 ++ pre3). split.
  - rewrite Hs0 at 1. rewrite Hs1. rewrite !app_assoc. reflexivity.
  - rewrite !Forall_app. repeat split; assumption.
Qed.

Lemma json_number_printable : forall s, json_number s = true -> Forall printable s.
Proof.
  intros s H. unfold json_number in H.
  destruct (p_num s) as [[|c u]|] eqn:E; try discriminate.
  destruct (p_num_eats _ _ E) as (pre & Hs & Hp). rewrite app_nil_r in Hs. subst. exact Hp.
Qed.





Lemma comma_sep_eq : comma_sep = [44; 32]%N.
Proof. reflexivity. Qed.

Lemma colon_sep_eq : colon_sep = [58; 32]%N.
Proof. reflexivity. Qed.




Lemma hex4_printable : forall n, Forall printable (hex4 n).
Proof.
  intro n. unfold hex4. repeat (apply Forall_cons; [apply hexdig_printable|]). apply Forall_nil.
Qed.

Lemma enc_char_printable : forall c, Forall printable (enc_char c).
Proof.
  intro c. unfold enc_char.
  destruct (c =? 34)%N; [lit_printable|].
  destruct (c =? 92)%N; [lit_printable|].
  destruct (c =? 8)%N; [lit_printable|].
  destruct (c =? 12)%N; [lit_printable|].
  destruct (c =? 10)%N; [lit_printable|].
  destruct (c =? 13)%N; [lit_printable|].
  destruct (c =? 9)%N; [lit_printable|].
  destruct ((32 <=? c) && (c <=? 126))%N eqn:E.
  { apply andb_true_iff in E as [E1 E2]. apply N.leb_le in E1, E2.
    apply Forall_cons; [unfold printable; lia | apply Forall_nil]. }
  destruct (c <? 65536)%N.
  - do 2 (apply Forall_cons; [unfold printable; lia|]). apply hex4_printable.
  - cbv zeta. do 2 (apply Forall_cons; [unfold printable; lia|]).
    apply Forall_app. split; [apply hex4_printable|].
    do 2 (apply Forall_cons; [unfold printable; lia|]). apply hex4_printable.
Qed.

Lemma enc_str_printable : forall s, Forall printable (enc_str s).
Proof.
  intro s. unfold enc_str. apply Forall_cons; [unfold printable; lia|].
  apply Forall_app. split; [|lit_printable].
  induction s as [|c s IH]; [apply Forall_nil|].
  cbn [flat_map]. apply Forall_app. split; [apply enc_char_printable | exact IH].
Qed.

Lemma join_printable : forall l, Forall (Forall printable) l -> Forall printable (join l).
Proof.
  intros l Hl. destruct Hl as [|x l Hx Hl]; [apply Forall_nil|].
  unfold join. apply Forall_app. split; [exact Hx|].
  induction Hl as [|y l Hy Hl IH]; [apply Forall_nil|].
  cbn [flat_map]. rewrite !Forall_app. rewrite comma_sep_eq.
  split; [split; [lit_printable | exact Hy] | exact IH].
Qed.

Lemma hexval_hexdig : forall d, (d < 16)%N -> hexval (hexdig d) = d.
Proof.
  intros d Hd. unfold hexdig, hexval. destruct (N.ltb_spec d 10).
  - destruct (N.ltb_spec (48 + d) 58); lia.
  - destruct (N.ltb_spec (87 + d) 58); lia.
Qed.

Lemma land15_shiftr : forall n k, N.land (N.shiftr n k) 15 = ((n / 2 ^ k) mod 16)%N.
Proof.
  intros n k. change 15%N with (N.ones 4). rewrite N.land_ones, N.shiftr_div_pow2. reflexivity.
Qed.

(** The four digits of [hex4 c] read back as [c]. *)
Lemma hex4_value : forall c, (c < 65536)%N -> hex_value (hex4 c) = c.
Proof.
  intros c Hc. unfold hex_value, hex4. cbn [fold_left].
  assert (H0 : N.land c 15 = (c mod 16)%N) by (change 15%N with (N.ones 4); apply N.land_ones).
  rewrite !land15_shiftr, H0.
  rewrite !hexval_hexdig by (apply N.mod_lt; lia).
  change (2 ^ 12)%N with 4096%N. change (2 ^ 8)%N with 256%N. change (2 ^ 4)%N with 16%N.
  pose proof (N.div_mod c 16 ltac:(lia)) as D1.
  pose proof (N.div_mod (c / 16) 16 ltac:(lia)) as D2.
  pose proof (N.div_mod (c / 16 / 16) 16 ltac:(lia)) as D3.
  rewrite N.Div0.div_div in D2, D3. rewrite N.Div0.div_div in D3.
  change (16 * 16)%N with 256%N in *. change (256 * 16)%N with 4096%N in *.
  assert (Hq : (c / 4096 < 16)%N) by (apply N.Div0.div_lt_upper_bound; lia).
  rewrite (N.mod_small (c / 4096)) by exact Hq.
  lia.
Qed.

Lemma lor_low_bits : forall b d, N.land b 1023 = 0%N -> (d < 1024)%N -> N.lor b d = (b + d)%N.
Proof.
  intros b d Hb Hd.
  assert (Hl : N.land b d = 0%N).
  { assert (E : d = N.land d 1023).
    { change 1023%N with (N.ones 10). rewrite N.land_ones. symmetry. apply N.mod_small. exact Hd. }
    rewrite E, N.land_assoc, (N.land_comm b d), <- N.land_assoc, Hb, N.land_0_r. reflexivity. }
  rewrite <- N.lxor_lor by exact Hl. symmetry. apply N.add_nocarry_lxor, Hl.
Qed.

Lemma enc_char_bmp : forall c, (c < 65536)%N -> ~ printable c -> ~ In c [8; 9; 10; 12; 13]%N ->
  enc_char c = 92%N :: 117%N :: hex4 c /\ hex_value (hex4 c) = c.
Proof.
  intros c Hc Hp Hl. split; [|apply hex4_value, Hc].
  unfold printable in Hp. cbn [In] in Hl.
  unfold enc_char.
  replace (c =? 34)%N with false by (symmetry; apply N.eqb_neq; lia).
  replace (c =? 92)%N with false by (symmetry; apply N.eqb_neq; lia).
  replace (c =? 8)%N with false by (symmetry; apply N.eqb_neq; intro; subst c; apply Hl; tauto).
  replace (c =? 12)%N with false by (symmetry; apply N.eqb_neq; intro; subst c; apply Hl; tauto).
  replace (c =? 10)%N with false by (symmetry; apply N.eqb_neq; intro; subst c; apply Hl; tauto).
  replace (c =? 13)%N with false by (symmetry; apply N.eqb_neq; intro; subst c; apply Hl; tauto).
  replace (c =? 9)%N with false by (symmetry; apply N.eqb_neq; intro; subst c; apply Hl; tauto).
  replace ((32 <=? c) && (c <=? 126))%N with false
    by (symmetry; destruct (N.leb_spec 32 c); destruct (N.leb_spec c 126);
        [exfalso; lia | reflexivity..]).
  replace (c <? 65536)%N with true by (symmetry; apply N.ltb_lt, Hc).
  reflexivity.
Qed.

Lemma enc_char_astral : forall c, (65536 <= c < 1114112)%N ->
  exists s1 s2,
    enc_char c = 92%N :: 117%N :: hex4 s1 ++ 92%N :: 117%N :: hex4 s2 /\
    hex_value (hex4 s1) = s1 /\ hex_value (hex4 s2) = s2 /\
    (55296 <= s1 < 56320)%N /\ (56320 <= s2 < 57344)%N /\
    c = (65536 + (s1 - 55296) * 1024 + (s2 - 56320))%N.
Proof.
  intros c Hc. unfold enc_char.
  replace (c =? 34)%N with false by (symmetry; apply N.eqb_neq; lia).
  replace (c =? 92)%N with false by (symmetry; apply N.eqb_neq; lia).
  replace (c =? 8)%N with false by (symmetry; apply N.eqb_neq; lia).
  replace (c =? 12)%N with false by (symmetry; apply N.eqb_neq; lia).
  replace (c =? 10)%N with false by (symmetry; apply N.eqb_neq; lia).
  replace (c =? 13)%N with false by (symmetry; apply N.eqb_neq; lia).
  replace (c =? 9)%N with false by (symmetry; apply N.eqb_neq; lia).
  replace (c <=? 126)%N with false by (symmetry; apply N.leb_gt; lia).
  rewrite andb_false_r.
  replace (c <? 65536)%N with false by (symmetry; apply N.ltb_ge; lia).
  cbv zeta.
  assert (Hn : (c - 65536 < 1048576)%N) by lia.
  remember (c - 65536)%N as n eqn:En.
  assert (Hq1 : N.land (N.shiftr n 10) 1023 = (n / 1024)%N).
  { change 1023%N with (N.ones 10). rewrite N.land_ones, N.shiftr_div_pow2.
    change (2 ^ 10)%N with 1024%N. apply N.mod_small.
    apply N.Div0.div_lt_upper_bound. lia. }
  assert (Hq2 : N.land n 1023 = (n mod 1024)%N).
  { change 1023%N with (N.ones 10). apply N.land_ones. }
  assert (Hd : (n / 1024 < 1024)%N) by (apply N.Div0.div_lt_upper_bound; lia).
  assert (Hm : (n mod 1024 < 1024)%N) by (apply N.mod_lt; lia).
  pose proof (N.div_mod n 1024 ltac:(lia)) as D.
  rewrite Hq1, Hq2, !lor_low_bits by (reflexivity || exact Hd || exact Hm).
  eexists _, _. split; [reflexivity|].
  split; [apply hex4_value; lia|]. split; [apply hex4_value; lia|].
  lia.
Qed.

Section Dumps_valid.

Variable float_repr : R -> pystr.
Hypothesis float_repr_number : forall r, json_number (float_repr r) = true.













Lemma dumps_printable : forall v, Forall printable (dumps float_repr v).
Proof.
  induction v as [s|f|l IH|kvs IH] using pyval_ind'.
  - apply enc_str_printable.
  - destruct f as [r|[|]|]; cbn [dumps enc_float].
    + apply json_number_printable, float_repr_number.
    + eval_list; lit_printable.
    + eval_list; lit_printable.
    + eval_list; lit_printable.
  - rewrite dumps_PList. apply Forall_cons; [unfold printable; lia|].
    apply Forall_app. split; [|lit_printable].
    apply join_printable, Forall_map, IH.
  - rewrite dumps_PDict. apply Forall_cons; [unfold printable; lia|].
    apply Forall_app. split; [|lit_printable].
    apply join_printable, Forall_map. apply Forall_forall. intros kv Hkv.
    rewrite Forall_forall in IH. rewrite !Forall_app, colon_sep_eq.
    split; [apply enc_str_printable | split; [lit_printable | apply IH, Hkv]].
Qed.

Lemma dumps_no_newline : forall v, ~ In 10%N (dumps float_repr v).
Proof.
  intros v Hin. pose proof (dumps_printable v) as H. rewrite Forall_forall in H.
  specialize (H _ Hin). unfold printable in H. lia.
Qed.

End Dumps_valid.







(** C6 (corrected): with torch and PIL importable, the transformers import
    succeeding or raising ImportError, and an image path given, the outcome
    depends on [process_image] (called with HAS_CLIP true exactly when the
    transformers import succeeded).  If it returns a document [d], the
    script writes [json.dumps(d)] and one newline on stdout, the only
    newline there, and exits 0 after the library calls of [process_image].
    If an exception [e] leaves it, nothing is written on stdout and the
    exit status is the one [e] gives at the top level. *)
Theorem result_line_exit0 : forall float_repr w (argv : list pystr),
  (forall r, json_number (float_repr r) = true) ->
  torch_installed w = true -> pil_installed w = true ->
  (forall e, transformers_import w = Some e -> exn_kind_of e = ImportError) ->
  2 <= List.length argv ->
  (forall d tr,
     process_image w (match transformers_import w with None => true | Some _ => false end)
       (nth 1 argv []) [] = (Ok d, tr) ->
     p_stdout (run float_repr w argv) = dumps float_repr d ++ nl /\
     ~ In 10%N (dumps float_repr d) /\
     p_status (run float_repr w argv) = Exited 0 /\
     p_trace (run float_repr w argv) = tr) /\
  (forall e tr,
     process_image w (match transformers_import w with None => true | Some _ => false end)
       (nth 1 argv []) [] = (Err e, tr) ->
     p_stdout (run float_repr w argv) = [] /\
     p_status (run float_repr w argv) = p_status (die [] [] e tr) /\
     p_trace (run float_repr w argv) = tr).
Proof.
  intros float_repr w argv Hfr Ht Hp Hti Hlen.
  assert (Hl : Nat.ltb (List.length argv) 2 = false) by (apply Nat.ltb_ge; lia).
  rewrite (run_main float_repr w argv Ht Hp Hti). unfold main. rewrite Hl.
  split.
  - intros d tr Hpi. rewrite Hpi. split; [reflexivity|].
    split; [apply dumps_no_newline, Hfr | split; reflexivity].
  - intros e tr Hpi. rewrite Hpi.
    split; [apply die_stdout|]. split; [apply die_status | apply die_trace].
Qed.

Lemma result_line_exit0_witness :
  (forall r, json_number (repr_stub r) = true) /\
  p_stdout (run repr_stub (world_ok true true (Some transformers_missing) [])
      [pstr "clip2_process.py"; pstr "a.png"]) =
    dumps repr_stub (doc (pstr "Image: " ++ pstr "a.png") zeros512) ++ nl /\
  p_status (run repr_stub (world_ok true true (Some transformers_missing) [])
      [pstr "clip2_process.py"; pstr "a.png"]) = Exited 0.
Proof.
  assert (H : forall r, json_number (repr_stub r) = true) by (intro r; reflexivity).
  split; [exact H|].
  destruct (result_line_exit0 repr_stub (world_ok true true (Some transformers_missing) [])
              [pstr "clip2_process.py"; pstr "a.png"] H eq_refl eq_refl
              ltac:(intros e He; injection He as <-; reflexivity) ltac:(simpl; lia))
    as [Hok _].
  destruct (Hok (doc (pstr "Image: " ++ pstr "a.png") zeros512) [] eq_refl)
    as (Ho & _ & Hs & _).
  split; [exact Ho | exact Hs].
Defined.

(** C6, counterexample: a path is given, but a KeyboardInterrupt raised by
    [Image.open] is not an [Exception]; it escapes [process_image], nothing is
    printed on stdout and the script does not exit 0. *)
Lemma result_line_exit0_cex :
  p_stdout (run repr_stub (world_open_raises keyboard_interrupt)
              [pstr "clip2_process.py"; pstr "img.png"]) = [] /\
  p_status (run repr_stub (world_open_raises keyboard_interrupt)
              [pstr "clip2_process.py"; pstr "img.png"]) <> Exited 0.
Proof. split; [reflexivity | discriminate]. Qed.

(** ** Further properties of the script *)

Lemma process_image_true_trace : forall w p t,
  snd (process_image w true p t) = snd (clip_body w p t).
Proof.
  intros w p t. unfold process_image, try_except. cbn [negb].
  destruct (clip_body w p t) as [[d|e] t0]; [reflexivity | apply clip_handler_trace].
Qed.



Lemma main_result_cases : forall float_repr w hc err0 argv,
  p_stdout (main float_repr w hc err0 argv) = [] \/
  exists d tr, process_image w hc (nth 1 argv []) [] = (Ok d, tr) /\
    p_stdout (main float_repr w hc err0 argv) = dumps float_repr d ++ nl /\
    p_status (main float_repr w hc err0 argv) = Exited 0.
Proof.
  intros float_repr w hc err0 argv. unfold main.
  destruct (Nat.ltb (List.length argv) 2); [left; reflexivity|].
  destruct (process_image w hc (nth 1 argv []) []) as [[d|e] tr] eqn:E.
  - right. exists d, tr. repeat split; reflexivity.
  - left. apply die_stdout.
Qed.

Lemma run_result_cases : forall float_repr w argv,
  p_stdout (run float_repr w argv) = [] \/
  exists hc d tr, process_image w hc (nth 1 argv []) [] = (Ok d, tr) /\
    p_stdout (run float_repr w argv) = dumps float_repr d ++ nl /\
    p_status (run float_repr w argv) = Exited 0.
Proof.
  intros float_repr w argv.
  assert (Hm : forall hc err0,
    p_stdout (main float_repr w hc err0 argv) = [] \/
    exists hc' d tr, process_image w hc' (nth 1 argv []) [] = (Ok d, tr) /\
      p_stdout (main float_repr w hc err0 argv) = dumps float_repr d ++ nl /\
      p_status (main float_repr w hc err0 argv) = Exited 0).
  { intros hc err0. destruct (main_result_cases float_repr w hc err0 argv)
      as [H | (d & tr & H)]; [left; exact H | right; exists hc, d, tr; exact H]. }
  unfold run.
  destruct (torch_installed w); cbn [negb]; [|left; apply die_stdout].
  destruct (pil_installed w); cbn [negb]; [|left; apply die_stdout].
  destruct (transformers_import w) as [e|]; [|apply Hm].
  destruct (exn_kind_of e); try (left; apply die_stdout). apply Hm.
Qed.



(** X1: the library calls of [process_image] form a prefix of the fixed
    sequence: load the model, load the processor, open the path, convert to
    RGB, preprocess, infer.  The prefix ends at the first call that raises:
    a failing [from_pretrained] of the model leaves one call, of the
    processor two, [Image.open] three, [convert] four, the processor call
    five; when these succeed all six calls are made. *)
Theorem process_image_trace_prefix : forall w hc p,
  (exists k, snd (process_image w hc p []) = firstn k (success_trace p)) /\
  (hc = false -> snd (process_image w hc p []) = []) /\
  (hc = true -> forall e, w_load_model w model_name = Err e ->
     snd (process_image w hc p []) = firstn 1 (success_trace p)) /\
  (hc = true -> forall m e, w_load_model w model_name = Ok m ->
     w_load_processor w model_name = Err e ->
     snd (process_image w hc p []) = firstn 2 (success_trace p)) /\
  (hc = true -> forall m pr e, w_load_model w model_name = Ok m ->
     w_load_processor w model_name = Ok pr -> w_open w p = Err e ->
     snd (process_image w hc p []) = firstn 3 (success_trace p)) /\
  (hc = true -> forall m pr i0 e, w_load_model w model_name = Ok m ->
     w_load_processor w model_name = Ok pr -> w_open w p = Ok i0 ->
     w_convert w i0 (pstr "RGB") = Err e ->
     snd (process_image w hc p []) = firstn 4 (success_trace p)) /\
  (hc = true -> forall m pr i0 i1 e, w_load_model w model_name = Ok m ->
     w_load_processor w model_name = Ok pr -> w_open w p = Ok i0 ->
     w_convert w i0 (pstr "RGB") = Ok i1 -> w_preprocess w pr i1 = Err e ->
     snd (process_image w hc p []) = firstn 5 (success_trace p)) /\
  (hc = true -> forall m pr i0 i1 x, calls_ok w p m pr i0 i1 x ->
     snd (process_image w hc p []) = success_trace p).
Proof.
  intros w hc p.
  split.
  { destruct hc; [|exists 0; reflexivity].
    rewrite process_image_true_trace.
    unfold clip_body, bind, lib, ret, raise, index0.
    repeat match goal with
    | |- context [match ?x with Ok _ => _ | Err _ => _ end] => destruct x
    | |- context [match ?x with [] => _ | _ :: _ => _ end] => destruct x
    end;
    first [ exists 1; reflexivity | exists 2; reflexivity | exists 3; reflexivity
          | exists 4; reflexivity | exists 5; reflexivity | exists 6; reflexivity ]. }
  split; [intros ->; reflexivity|].
  split; [intros -> e E1; rewrite process_image_true_trace;
          unfold clip_body, bind, lib; rewrite E1; reflexivity|].
  split; [intros -> m e E1 E2; rewrite process_image_true_trace;
          unfold clip_body, bind, lib; rewrite E1, E2; reflexivity|].
  split; [intros -> m pr e E1 E2 E3; rewrite process_image_true_trace;
          unfold clip_body, bind, lib; rewrite E1, E2, E3; reflexivity|].
  split; [intros -> m pr i0 e E1 E2 E3 E4; rewrite process_image_true_trace;
          unfold clip_body, bind, lib; rewrite E1, E2, E3, E4; reflexivity|].
  split; [intros -> m pr i0 i1 e E1 E2 E3 E4 E5; rewrite process_image_true_trace;
          unfold clip_body, bind, lib; rewrite E1, E2, E3, E4, E5; reflexivity|].
  intros -> m pr i0 i1 x (E1 & E2 & E3 & E4 & E5). rewrite process_image_true_trace.
  unfold clip_body, bind, lib, ret, raise, index0. rewrite E1, E2, E3, E4, E5.
  destruct (w_features w m x) as [rows|e]; [destruct (normalize_rows w rows)|]; reflexivity.
Qed.

Lemma process_image_trace_prefix_witness :
  snd (process_image (world_open_raises file_not_found) true (pstr "a.png") []) =
    firstn 3 (success_trace (pstr "a.png")).
Proof.
  destruct (process_image_trace_prefix (world_open_raises file_not_found) true (pstr "a.png"))
    as (_ & _ & _ & _ & H & _).
  exact (H eq_refl 1 2 file_not_found eq_refl eq_refl eq_refl).
Defined.

(** X2: the image path is opened only when the inference library is
    available and both the model and the processor have been loaded. *)
Theorem open_after_loads : forall w hc p,
  In (EvOpen p) (snd (process_image w hc p [])) ->
  hc = true /\ (exists m, w_load_model w model_name = Ok m) /\
  (exists pr, w_load_processor w model_name = Ok pr).
Proof.
  intros w [|] p H; [|simpl in H; contradiction].
  rewrite process_image_true_trace in H.
  unfold clip_body, bind, lib in H.
  destruct (w_load_model w model_name) as [m|e] eqn:Em;
    [|simpl in H; destruct H as [H|[]]; discriminate].
  destruct (w_load_processor w model_name) as [pr|e] eqn:Ep;
    [|simpl in H; destruct H as [H|[H|[]]]; discriminate].
  split; [reflexivity | split; eauto].
Qed.

Lemma open_after_loads_witness :
  In (EvOpen (pstr "a.png"))
     (snd (process_image (world_ok true true None []) true (pstr "a.png") [])) /\
  (true = true /\ (exists m, w_load_model (world_ok true true None []) model_name = Ok m) /\
   (exists pr, w_load_processor (world_ok true true None []) model_name = Ok pr)).
Proof.
  assert (H : In (EvOpen (pstr "a.png"))
     (snd (process_image (world_ok true true None []) true (pstr "a.png") [])))
    by (simpl; tauto).
  split; [exact H | apply (open_after_loads _ _ _ H)].
Defined.

(** X3: when every call succeeds but the model returns no feature row,
    [image_features[0]] raises IndexError, which is caught: the result is
    the error document with 512 zeros, after all six library calls. *)
Theorem empty_batch_error : forall w p t m pr i0 i1 x,
  calls_ok w p m pr i0 i1 x -> w_features w m x = Ok [] ->
  process_image w true p t =
    (Ok (doc (pstr "Error processing image: " ++
              pstr "index 0 is out of bounds for dimension 0 with size 0") zeros512),
     t ++ success_trace p).
Proof.
  intros w p t m pr i0 i1 x Hok Hf.
  rewrite (process_image_features w p t m pr i0 i1 x [] Hok Hf). reflexivity.
Qed.

Lemma empty_batch_error_witness :
  process_image (world_ok true true None []) true (pstr "a.png") [] =
    (Ok (doc (pstr "Error processing image: " ++
              pstr "index 0 is out of bounds for dimension 0 with size 0") zeros512),
     [] ++ success_trace (pstr "a.png")).
Proof.
  apply (empty_batch_error (world_ok true true None []) (pstr "a.png") [] 1 2 3 4 5);
    [repeat split | reflexivity].
Defined.

(** X4: only the first feature row matters: two runs with the same
    float32 arithmetic, whose library calls return the same handles and
    whose feature batches share their first row, give the same result and
    the same calls. *)
Theorem first_row_only : forall w1 w2 p t m pr i0 i1 x row rows1 rows2,
  w_norm w1 = w_norm w2 -> w_round w1 = w_round w2 ->
  calls_ok w1 p m pr i0 i1 x -> calls_ok w2 p m pr i0 i1 x ->
  w_features w1 m x = Ok (row :: rows1) -> w_features w2 m x = Ok (row :: rows2) ->
  process_image w1 true p t = process_image w2 true p t.
Proof.
  intros w1 w2 p t m pr i0 i1 x row rows1 rows2 Hn Hr H1 H2 F1 F2.
  rewrite (process_image_features w1 p t m pr i0 i1 x _ H1 F1),
          (process_image_features w2 p t m pr i0 i1 x _ H2 F2).
  unfold normalize_rows, row_norm, fdiv. cbn [map]. rewrite Hn, Hr.
  reflexivity.
Qed.

Lemma first_row_only_witness :
  process_image (world_ok true true None [unit_row]) true (pstr "a.png") [] =
  process_image (world_ok true true None [unit_row; repeat (Fin 0) 512]) true (pstr "a.png") [].
Proof.
  apply (first_row_only _ _ (pstr "a.png") [] 1 2 3 4 5 unit_row [] [repeat (Fin 0) 512]);
    [reflexivity | reflexivity | repeat split | repeat split | reflexivity | reflexivity].
Defined.

(** X5: a NaN anywhere in the first feature row makes the norm NaN, and
    then every entry of the returned embedding is NaN. *)
Theorem nan_row_all_nan : forall w p t m pr i0 i1 x row rows,
  calls_ok w p m pr i0 i1 x -> w_features w m x = Ok (row :: rows) ->
  existsb is_nan row = true ->
  process_image w true p t =
    (Ok (doc (pstr "Image from " ++ p) (PList (map PFloat (repeat NaN (List.length row))))),
     t ++ success_trace p).
Proof.
  intros w p t m pr i0 i1 x row rows Hok Hf Hn.
  rewrite (process_image_features w p t m pr i0 i1 x _ Hok Hf). cbn [normalize_rows map].
  unfold row_norm. rewrite Hn, map_fdiv_nan. reflexivity.
Qed.

Lemma nan_row_all_nan_witness :
  process_image (world_ok true true None [[NaN; Fin 1]]) true (pstr "a.png") [] =
    (Ok (doc (pstr "Image from " ++ pstr "a.png")
             (PList (map PFloat (repeat NaN (List.length [NaN; Fin 1]))))),
     [] ++ success_trace (pstr "a.png")).
Proof.
  apply (nan_row_all_nan (world_ok true true None [[NaN; Fin 1]]) (pstr "a.png") []
           1 2 3 4 5 [NaN; Fin 1] []); [repeat split | reflexivity | reflexivity].
Defined.

Lemma map_fdiv_inf : forall w l, existsb is_nan l = false ->
  map (fun x => fdiv w x (Inf false)) l = map (fun x => if is_inf x then NaN else Fin 0) l.
Proof.
  intro w. induction l as [|[r|a|] l IH]; intro H; [reflexivity | | | discriminate];
    cbn [map existsb is_nan orb] in *; rewrite IH by exact H; reflexivity.
Qed.

(** X6: with no NaN but an infinity in the first feature row, the norm is
    +inf: every infinite entry of the embedding becomes NaN and every finite
    entry becomes 0. *)
Theorem inf_row_embedding : forall w p t m pr i0 i1 x row rows,
  calls_ok w p m pr i0 i1 x -> w_features w m x = Ok (row :: rows) ->
  existsb is_nan row = false -> existsb is_inf row = true ->
  process_image w true p t =
    (Ok (doc (pstr "Image from " ++ p)
             (PList (map PFloat (map (fun f => if is_inf f then NaN else Fin 0) row)))),
     t ++ success_trace p).
Proof.
  intros w p t m pr i0 i1 x row rows Hok Hf Hn Hi.
  rewrite (process_image_features w p t m pr i0 i1 x _ Hok Hf). cbn [normalize_rows map].
  unfold row_norm. rewrite Hn, Hi, map_fdiv_inf by exact Hn. reflexivity.
Qed.

Lemma inf_row_embedding_witness :
  process_image (world_ok true true None [[Inf false; Fin 1]]) true (pstr "a.png") [] =
    (Ok (doc (pstr "Image from " ++ pstr "a.png")
             (PList (map PFloat (map (fun f => if is_inf f then NaN else Fin 0)
                                     [Inf false; Fin 1])))),
     [] ++ success_trace (pstr "a.png")).
Proof.
  apply (inf_row_embedding (world_ok true true None [[Inf false; Fin 1]]) (pstr "a.png") []
           1 2 3 4 5 [Inf false; Fin 1] []);
    [repeat split | reflexivity | reflexivity | reflexivity].
Defined.

(** X10: the only exceptions that escape [process_image] come from its
    [try] block, with the library available: either the exception raised
    there is not an [Exception] (it passes through unchanged), or it is an
    [Exception] whose [str()] raised, and that second exception escapes. *)
Theorem process_image_escapes : forall w hc p t e t',
  process_image w hc p t = (Err e, t') ->
  hc = true /\
  exists e0, clip_body w p t = (Err e0, t') /\
    ((is_Exception (exn_kind_of e0) = false /\ e = e0) \/
     (is_Exception (exn_kind_of e0) = true /\ exists k, e0 = Exn k (StrRaises e))).
Proof.
  intros w [|] p t e t' H; [|discriminate H].
  split; [reflexivity|].
  unfold process_image, try_except in H. cbn [negb] in H.
  destruct (clip_body w p t) as [[d|e0] t0]; [discriminate H|].
  exists e0. unfold clip_handler in H.
  destruct e0 as [k [m|e1]]; cbn [exn_kind_of] in H |- *;
    destruct (is_Exception k) eqn:Hk; unfold ret, raise in H; cbv iota beta in H;
    inversion H; subst.
  - split; [reflexivity | left; split; reflexivity].
  - split; [reflexivity | right; split; [reflexivity | eauto]].
  - split; [reflexivity | left; split; reflexivity].
Qed.

Lemma process_image_escapes_witness :
  process_image (world_open_raises keyboard_interrupt) true (pstr "a.png") [] =
    (Err keyboard_interrupt, [EvLoadModel model_name; EvLoadProcessor model_name;
                              EvOpen (pstr "a.png")]) /\
  (true = true /\
   exists e0, clip_body (world_open_raises keyboard_interrupt) (pstr "a.png") [] =
       (Err e0, [EvLoadModel model_name; EvLoadProcessor model_name; EvOpen (pstr "a.png")]) /\
     ((is_Exception (exn_kind_of e0) = false /\ keyboard_interrupt = e0) \/
      (is_Exception (exn_kind_of e0) = true /\
       exists k, e0 = Exn k (StrRaises keyboard_interrupt)))).
Proof.
  assert (H : process_image (world_open_raises keyboard_interrupt) true (pstr "a.png") [] =
    (Err keyboard_interrupt, [EvLoadModel model_name; EvLoadProcessor model_name;
                              EvOpen (pstr "a.png")])) by reflexivity.
  split; [exact H | apply (process_image_escapes _ _ _ _ _ _ H)].
Defined.

(** X11: everything the script writes on stdout is printable ASCII
    (code points 32 to 126) apart from the line feed.  json.dumps writes a
    string as its characters passed through [enc_char], between double
    quotes; a code point below 0x10000 that is not printable and has no
    short escape becomes [\uXXXX] with the four hex digits of its value, and
    one above becomes two [\uXXXX] escapes forming the UTF-16 surrogate pair
    that decodes to it. *)
Theorem stdout_ascii : forall float_repr,
  (forall r, json_number (float_repr r) = true) ->
  (forall w argv, Forall (fun c => printable c \/ c = 10%N) (p_stdout (run float_repr w argv))) /\
  (forall s, dumps float_repr (PStr s) = 34%N :: flat_map enc_char s ++ [34%N]) /\
  (forall c, (c < 65536)%N -> ~ printable c -> ~ In c [8; 9; 10; 12; 13]%N ->
     enc_char c = 92%N :: 117%N :: hex4 c /\ hex_value (hex4 c) = c) /\
  (forall c, (65536 <= c < 1114112)%N ->
     exists s1 s2,
       enc_char c = 92%N :: 117%N :: hex4 s1 ++ 92%N :: 117%N :: hex4 s2 /\
       hex_value (hex4 s1) = s1 /\ hex_value (hex4 s2) = s2 /\
       (55296 <= s1 < 56320)%N /\ (56320 <= s2 < 57344)%N /\
       c = (65536 + (s1 - 55296) * 1024 + (s2 - 56320))%N).
Proof.
  intros float_repr Hfr.
  split; [|split; [reflexivity | split; [exact enc_char_bmp | exact enc_char_astral]]].
  intros w argv.
  destruct (run_result_cases float_repr w argv) as [H | (hc & d & tr & _ & H & _)];
    rewrite H; [apply Forall_nil|].
  apply Forall_app. split.
  - eapply Forall_impl; [|apply (dumps_printable float_repr Hfr d)]. intros c Hc. left; exact Hc.
  - apply Forall_cons; [right; reflexivity | apply Forall_nil].
Qed.

Lemma stdout_ascii_witness :
  (forall r, json_number (repr_stub r) = true) /\
  Forall (fun c => printable c \/ c = 10%N)
    (p_stdout (run repr_stub (world_ok true true (Some transformers_missing) [])
                 [pstr "clip2_process.py"; [233%N]])) /\
  enc_char 233 = 92%N :: 117%N :: hex4 233 /\ hex_value (hex4 233) = 233%N.
Proof.
  assert (H : forall r, json_number (repr_stub r) = true) by (intro r; reflexivity).
  destruct (stdout_ascii repr_stub H) as (Hs & _ & Hb & _).
  split; [exact H|]. split; [apply Hs|].
  apply Hb.
  - lia.
  - unfold printable. lia.
  - simpl. intuition discriminate.
Defined.

(** X12: whenever the script writes anything on stdout, that is the result
    line, and it exits with status 0. *)
Theorem stdout_implies_exit0 : forall float_repr w argv,
  p_stdout (run float_repr w argv) <> [] -> p_status (run float_repr w argv) = Exited 0.
Proof.
  intros float_repr w argv H.
  destruct (run_result_cases float_repr w argv) as [E | (hc & d & tr & _ & _ & E)];
    [contradiction | exact E].
Qed.

Lemma stdout_implies_exit0_witness :
  p_stdout (run repr_stub (world_ok true true (Some transformers_missing) [])
              [pstr "clip2_process.py"; pstr "a.png"]) <> [] /\
  p_status (run repr_stub (world_ok true true (Some transformers_missing) [])
              [pstr "clip2_process.py"; pstr "a.png"]) = Exited 0.
Proof.
  assert (H : p_stdout (run repr_stub (world_ok true true (Some transformers_missing) [])
              [pstr "clip2_process.py"; pstr "a.png"]) <> []).
  { unfold run, main. cbn -[dumps]. intro E. destruct (app_cons_not_nil _ _ _ (eq_sym E)). }
  split; [exact H | apply (stdout_implies_exit0 _ _ _ H)].
Defined.

(** X13: without an image-path argument the script makes no library call:
    no model is loaded and no file is opened, whatever the imports did. *)
Theorem usage_no_calls : forall float_repr w argv,
  List.length argv < 2 -> p_trace (run float_repr w argv) = [].
Proof.
  intros float_repr w argv Hlen.
  assert (Hm : forall hc err0, p_trace (main float_repr w hc err0 argv) = []).
  { intros hc err0. unfold main.
    replace (Nat.ltb (List.length argv) 2) with true by (symmetry; apply Nat.ltb_lt; lia).
    reflexivity. }
  unfold run.
  destruct (torch_installed w); cbn [negb]; [|apply die_trace].
  destruct (pil_installed w); cbn [negb]; [|apply die_trace].
  destruct (transformers_import w) as [e|]; [|apply Hm].
  destruct (exn_kind_of e); try apply die_trace. apply Hm.
Qed.

Lemma usage_no_calls_witness :
  p_trace (run repr_stub (world_ok true true None [unit_row]) [pstr "clip2_process.py"]) = [].
Proof. apply usage_no_calls. simpl. lia. Defined.

(** X14: a SystemExit raised inside the [try] block of [process_image] is
    not caught.  The script writes nothing on stdout and exits with the
    status the exit code gives: 0 for [None], the code modulo 256 for an
    [int] within the range of a C [long long] (so [SystemExit(0)] and
    [SystemExit(256)] exit 0 with no result line), 255 for a larger [int],
    and 1 for any other code. *)
Theorem system_exit_escapes : forall float_repr w a0 p rest code s t',
  torch_installed w = true -> pil_installed w = true -> transformers_import w = None ->
  clip_body w p [] = (Err (Exn (SysExit code) s), t') ->
  p_stdout (run float_repr w (a0 :: p :: rest)) = [] /\
  p_trace (run float_repr w (a0 :: p :: rest)) = t' /\
  (code = ExitNone -> p_status (run float_repr w (a0 :: p :: rest)) = Exited 0) /\
  (forall c, code = ExitInt c -> (-9223372036854775808 <= c < 9223372036854775808)%Z ->
     p_status (run float_repr w (a0 :: p :: rest)) = Exited (c mod 256)) /\
  (forall c, code = ExitInt c -> (c < -9223372036854775808 \/ 9223372036854775808 <= c)%Z ->
     p_status (run float_repr w (a0 :: p :: rest)) = Exited 255) /\
  (forall o, code = ExitObj o -> p_status (run float_repr w (a0 :: p :: rest)) = Exited 1).
Proof.
  intros float_repr w a0 p rest code s t' Ht Hp Hti Hb.
  assert (Hr : run float_repr w (a0 :: p :: rest) = die [] [] (Exn (SysExit code) s) t').
  { unfold run. rewrite Ht, Hp, Hti. cbn [negb]. unfold main. cbn [List.length Nat.ltb nth].
    unfold process_image, try_except. cbn [negb]. rewrite Hb. reflexivity. }
  rewrite Hr. split; [apply die_stdout|]. split; [apply die_trace|].
  unfold die, exit_status. cbn [exn_kind_of].
  split; [intros ->; reflexivity|].
  split; [intros c -> Hc; cbn [p_status]; f_equal;
          replace ((-9223372036854775808 <=? c) && (c <? 9223372036854775808))%Z with true
            by (symmetry; apply andb_true_intro; split; [apply Z.leb_le | apply Z.ltb_lt]; lia);
          reflexivity|].
  split; [intros c -> Hc; cbn [p_status]; f_equal;
          replace ((-9223372036854775808 <=? c) && (c <? 9223372036854775808))%Z with false;
          [reflexivity|];
          symmetry; apply andb_false_iff;
          destruct Hc; [left; apply Z.leb_gt | right; apply Z.ltb_ge]; lia|].
  intros o ->. reflexivity.
Qed.

Lemma system_exit_escapes_witness :
  p_status (run repr_stub (world_open_raises (Exn (SysExit (ExitInt 256)) (StrOk [])))
              [pstr "clip2_process.py"; pstr "a.png"]) = Exited 0.
Proof.
  destruct (system_exit_escapes repr_stub
              (world_open_raises (Exn (SysExit (ExitInt 256)) (StrOk [])))
              (pstr "clip2_process.py") (pstr "a.png") [] (ExitInt 256) (StrOk [])
              [EvLoadModel model_name; EvLoadProcessor model_name; EvOpen (pstr "a.png")]
              eq_refl eq_refl eq_refl eq_refl) as (_ & _ & _ & H & _).
  exact (H 256%Z eq_refl ltac:(lia)).
Defined.
